(** * ILI9341 TFT LCD driver (Src/ili9341_tft_lcd_driver.c): shallow embedding

    The driver is a single translation unit that talks to three external
    collaborators of the STM32 HAL: [HAL_GPIO_WritePin], [HAL_Delay] and
    [HAL_SPI_Transmit_DMA].  The embedding keeps the C functions one to one,
    as computations in a state-and-log monad: the state holds the driver's
    file-scope statics and the levels of the three control lines, the log
    records every call the driver makes on a collaborator, in program order. *)

From Stdlib Require Import ZArith List Bool Lia.
Import ListNotations.
Open Scope Z_scope.

(** ** Status codes *)

(** [ILI9341_Status] (Inc/ili9341_tft_lcd_driver.h).  A C enumeration is an
    integer type, and [HAL_ret_handler] casts a HAL status into it, so the
    type is embedded as [Z] with the enumerators as named constants. *)
Definition ILI9341_Status := Z.
Definition ILI9341_EC_OK   : ILI9341_Status := 0.
Definition ILI9341_EC_STOP : ILI9341_Status := 1.
Definition ILI9341_EC_NR   : ILI9341_Status := 2.
Definition ILI9341_EC_NA   : ILI9341_Status := 3.
Definition ILI9341_EC_ERR  : ILI9341_Status := 4.

(** [ILI9341_BPP_t] (Inc/ili9341_tft_lcd_driver.h). *)
Definition ILI9341_BPP_t := Z.
Definition ILI9341_BPP_16 : ILI9341_BPP_t := 0.
Definition ILI9341_BPP_18 : ILI9341_BPP_t := 1.

(** Modelled from the spec: [HAL_StatusTypeDef] is declared by the STM32 HAL
    header that the driver includes (stm32f1xx_hal.h), which is not part of
    the repository.  The spec names the four outcomes (success, hard error,
    busy, timeout); their numeric codes are the ones of the STM32 HAL. *)
Definition HAL_StatusTypeDef := Z.
Definition HAL_OK      : HAL_StatusTypeDef := 0.
Definition HAL_ERROR   : HAL_StatusTypeDef := 1.
Definition HAL_BUSY    : HAL_StatusTypeDef := 2.
Definition HAL_TIMEOUT : HAL_StatusTypeDef := 3.

(** ** Command opcodes and sizes (the #define block of the driver) *)

Definition ILI9341_SOFTWARE_RESET_COMMAND             : Z := 0x01.
Definition ILI9341_POWER_CONTROL_1_COMMAND            : Z := 0xC0.
Definition ILI9341_VCOM_CONTROL_1_COMMAND             : Z := 0xC5.
Definition ILI9341_VCOM_CONTROL_2_COMMAND             : Z := 0xC7.
Definition ILI9341_MEMORY_ACCESS_CONTROL_COMMAND      : Z := 0x36.
Definition ILI9341_PIXEL_FORMAT_COMMAND               : Z := 0x3A.
Definition ILI9341_DISPLAY_FUNCTION_CONTROL_COMMAND   : Z := 0xB6.
Definition ILI9341_SLEEP_OUT_COMMAND                  : Z := 0x11.
Definition ILI9341_DISPLAY_ON_COMMAND                 : Z := 0x29.
Definition ILI9341_COMMAND_SIZE                       : Z := 1.
Definition ILI9341_SINGLE_DATA_SIZE                   : Z := 1.
Definition ILI9341_VCOM_CONTROL_1_DATA_SIZE           : Z := 2.
Definition ILI9341_DISPLAY_FUNCTION_CONTROL_DATA_SIZE : Z := 2.

(** The single-valued voltage enumerations. *)
Definition ILI9341_GVDD_4V6        : Z := 0x23.
Definition ILI9341_VCOMH_4V25      : Z := 0x3E.
Definition ILI9341_VCOML_minus_1V5 : Z := 0x28.
Definition ILI9341_VMF_minus_58    : Z := 0x86.

(** The cast [(uint8_t) v]. *)
Definition uint8 (v : Z) : Z := v mod 256.

(** ** Bit-field payload structures

    The three packed structures are made of [uint8_t] bit-fields.  A store
    into a field of width [n] keeps the low [n] bits of the value; the byte
    image puts the first declared field at the least significant bits, which
    is the layout the field comments of the source document. *)

Definition bitfield (width v : Z) : Z := Z.land v (Z.ones width).

Record ILI9341_MADCTL_def_t := mkMADCTL {
  d0_and_d1 : Z;   (* :2 *)
  mh        : Z;   (* :1 *)
  bgr       : Z;   (* :1 *)
  ml        : Z;   (* :1 *)
  wr_rd_dir : Z    (* :3 *)
}.

Record ILI9341_MADCTL_MCU_WRITE_READ_DIRECTION_def_t := mkWRDIR {
  mv       : Z;    (* :1 *)
  mx       : Z;    (* :1 *)
  my       : Z;    (* :1 *)
  reserved : Z     (* :5 *)
}.

Record ILI9341_PIXEL_FORMAT_def_t := mkPIXFMT {
  dbi : Z;         (* :3 *)
  d3  : Z;         (* :1 *)
  dpi : Z;         (* :3 *)
  d7  : Z          (* :1 *)
}.

(** The initialiser [= {0}]. *)
Definition MADCTL_zero : ILI9341_MADCTL_def_t := mkMADCTL 0 0 0 0 0.
Definition WRDIR_zero : ILI9341_MADCTL_MCU_WRITE_READ_DIRECTION_def_t :=
  mkWRDIR 0 0 0 0.
Definition PIXFMT_zero : ILI9341_PIXEL_FORMAT_def_t := mkPIXFMT 0 0 0 0.

(** Field stores, [s.f = v]. *)
Definition set_mh (v : Z) (s : ILI9341_MADCTL_def_t) :=
  mkMADCTL (d0_and_d1 s) (bitfield 1 v) (bgr s) (ml s) (wr_rd_dir s).
Definition set_bgr (v : Z) (s : ILI9341_MADCTL_def_t) :=
  mkMADCTL (d0_and_d1 s) (mh s) (bitfield 1 v) (ml s) (wr_rd_dir s).
Definition set_ml (v : Z) (s : ILI9341_MADCTL_def_t) :=
  mkMADCTL (d0_and_d1 s) (mh s) (bgr s) (bitfield 1 v) (wr_rd_dir s).
Definition set_wr_rd_dir (v : Z) (s : ILI9341_MADCTL_def_t) :=
  mkMADCTL (d0_and_d1 s) (mh s) (bgr s) (ml s) (bitfield 3 v).

Definition set_mv (v : Z) (s : ILI9341_MADCTL_MCU_WRITE_READ_DIRECTION_def_t) :=
  mkWRDIR (bitfield 1 v) (mx s) (my s) (reserved s).
Definition set_mx (v : Z) (s : ILI9341_MADCTL_MCU_WRITE_READ_DIRECTION_def_t) :=
  mkWRDIR (mv s) (bitfield 1 v) (my s) (reserved s).
Definition set_my (v : Z) (s : ILI9341_MADCTL_MCU_WRITE_READ_DIRECTION_def_t) :=
  mkWRDIR (mv s) (mx s) (bitfield 1 v) (reserved s).

Definition set_dbi (v : Z) (s : ILI9341_PIXEL_FORMAT_def_t) :=
  mkPIXFMT (bitfield 3 v) (d3 s) (dpi s) (d7 s).
Definition set_dpi (v : Z) (s : ILI9341_PIXEL_FORMAT_def_t) :=
  mkPIXFMT (dbi s) (d3 s) (bitfield 3 v) (d7 s).

(** Byte images, the value read through [(uint8_t * ) &s]. *)
Definition MADCTL_byte (s : ILI9341_MADCTL_def_t) : Z :=
  Z.lor (d0_and_d1 s)
    (Z.lor (Z.shiftl (mh s) 2)
       (Z.lor (Z.shiftl (bgr s) 3)
          (Z.lor (Z.shiftl (ml s) 4) (Z.shiftl (wr_rd_dir s) 5)))).

Definition WRDIR_byte (s : ILI9341_MADCTL_MCU_WRITE_READ_DIRECTION_def_t) : Z :=
  Z.lor (mv s)
    (Z.lor (Z.shiftl (mx s) 1)
       (Z.lor (Z.shiftl (my s) 2) (Z.shiftl (reserved s) 3))).

Definition PIXFMT_byte (s : ILI9341_PIXEL_FORMAT_def_t) : Z :=
  Z.lor (dbi s)
    (Z.lor (Z.shiftl (d3 s) 3)
       (Z.lor (Z.shiftl (dpi s) 4) (Z.shiftl (d7 s) 7))).

(** ** The hardware seen through the HAL *)

Inductive GPIO_PinState := GPIO_PIN_RESET | GPIO_PIN_SET.

(** The three members of [ILI9341_peripherals_def_t].  Every GPIO call of the
    driver names its pin as [p_ili9341_peripherals->L.GPIO_Port] and
    [p_ili9341_peripherals->L.GPIO_Pin] for one member [L]; the embedding
    identifies the call by that member, the binding being taken to give each
    of the three lines a pin of its own. *)
Inductive ili9341_line := CS | RESET | DC.

(** The two fill routines [p_ili9341_fill_screen] can point to. *)
Inductive fill_routine := ili9341_fill_screen_16bpp | ili9341_fill_screen_18bpp.

(** One entry per call on a collaborator.  [StrayStore] records a store the
    driver makes through an array index that is outside the array. *)
Inductive event :=
| GPIO_Write (line : ili9341_line) (level : GPIO_PinState)
| Delay (ms : Z)
| SPI_WaitTXE (polls : nat)
| SPI_Transmit (data : list Z) (size : Z) (status : HAL_StatusTypeDef)
| StrayStore (index : nat) (value : Z).

(** The transport as the driver observes it: the status of the [n]-th call of
    [HAL_SPI_Transmit_DMA] (which may depend on the bytes handed over), and
    the number of times the TXE flag reads clear before that call before it
    reads set.  The driver is deterministic, so a transport that reacts to
    the whole history is covered by one indexed by the call number. *)
Record transport := mkTransport {
  spi_status : nat -> list Z -> HAL_StatusTypeDef;
  txe_polls  : nat -> nat
}.

(** File-scope statics of the driver, the levels of the control lines, and
    the number of transmit calls made so far. *)
Record world := mkWorld {
  p_hspi                : Z;
  p_ili9341_peripherals : Z;
  ili9341_bpp_type      : ILI9341_BPP_t;
  p_ili9341_fill_screen : option fill_routine;
  pin_CS                : GPIO_PinState;
  pin_RESET             : GPIO_PinState;
  pin_DC                : GPIO_PinState;
  spi_calls             : nat
}.

Definition set_p_hspi (v : Z) (w : world) : world :=
  mkWorld v (p_ili9341_peripherals w) (ili9341_bpp_type w)
    (p_ili9341_fill_screen w) (pin_CS w) (pin_RESET w) (pin_DC w) (spi_calls w).
Definition set_p_ili9341_peripherals (v : Z) (w : world) : world :=
  mkWorld (p_hspi w) v (ili9341_bpp_type w)
    (p_ili9341_fill_screen w) (pin_CS w) (pin_RESET w) (pin_DC w) (spi_calls w).
Definition set_ili9341_bpp_type_var (v : ILI9341_BPP_t) (w : world) : world :=
  mkWorld (p_hspi w) (p_ili9341_peripherals w) v
    (p_ili9341_fill_screen w) (pin_CS w) (pin_RESET w) (pin_DC w) (spi_calls w).
Definition set_p_ili9341_fill_screen (f : fill_routine) (w : world) : world :=
  mkWorld (p_hspi w) (p_ili9341_peripherals w) (ili9341_bpp_type w)
    (Some f) (pin_CS w) (pin_RESET w) (pin_DC w) (spi_calls w).
Definition set_pin (l : ili9341_line) (s : GPIO_PinState) (w : world) : world :=
  match l with
  | CS => mkWorld (p_hspi w) (p_ili9341_peripherals w) (ili9341_bpp_type w)
            (p_ili9341_fill_screen w) s (pin_RESET w) (pin_DC w) (spi_calls w)
  | RESET => mkWorld (p_hspi w) (p_ili9341_peripherals w) (ili9341_bpp_type w)
            (p_ili9341_fill_screen w) (pin_CS w) s (pin_DC w) (spi_calls w)
  | DC => mkWorld (p_hspi w) (p_ili9341_peripherals w) (ili9341_bpp_type w)
            (p_ili9341_fill_screen w) (pin_CS w) (pin_RESET w) s (spi_calls w)
  end.
Definition count_spi_call (w : world) : world :=
  mkWorld (p_hspi w) (p_ili9341_peripherals w) (ili9341_bpp_type w)
    (p_ili9341_fill_screen w) (pin_CS w) (pin_RESET w) (pin_DC w)
    (S (spi_calls w)).

(** ** The monad: state passing with a log of events *)

Definition M (A : Type) : Type := world -> A * world * list event.

Definition pure {A} (a : A) : M A := fun w => (a, w, []).

Definition bind {A B} (m : M A) (k : A -> M B) : M B :=
  fun w =>
    let '(a, w1, e1) := m w in
    let '(b, w2, e2) := k a w1 in
    (b, w2, e1 ++ e2).

Declare Scope drv_scope.
Delimit Scope drv_scope with drv.
Notation "x <- m ;; k" := (bind m (fun x => k))
  (at level 61, m at next level, right associativity) : drv_scope.
Notation "m ;;; k" := (bind m (fun _ => k))
  (at level 61, right associativity) : drv_scope.
Open Scope drv_scope.

Definition value {A} (r : A * world * list event) : A := fst (fst r).
Definition final {A} (r : A * world * list event) : world := snd (fst r).
Definition log {A} (r : A * world * list event) : list event := snd r.

Definition modify (f : world -> world) : M unit := fun w => (tt, f w, []).
Definition emit (e : event) : M unit := fun w => (tt, w, [e]).

(** [r != ILI9341_EC_OK] *)
Definition not_OK (r : ILI9341_Status) : bool := negb (r =? ILI9341_EC_OK).

(** ** Local arrays

    A local array is the list of its elements.  A store through an index
    inside the array updates the element.  A store through an index outside
    it does not belong to the array and has no defined behaviour in C: the
    embedding leaves the array as it is and records the store in the log.
    That the run goes on unchanged after it is an assumption (the store is
    taken to land in the function's own frame without changing a value the
    function still uses); what a log shows after a [StrayStore] holds under
    that assumption only. *)
Fixpoint update (i : nat) (v : Z) (a : list Z) : list Z :=
  match a, i with
  | [], _ => []
  | _ :: t, O => v :: t
  | h :: t, S j => h :: update j v t
  end.

Definition array_store (a : list Z) (i : nat) (v : Z) : M (list Z) :=
  if (i <? length a)%nat then pure (update i v a)
  else (emit (StrayStore i v) ;;; pure a).

(** A local array declared without initialiser; every element the driver
    reads is stored first, so the initial content is immaterial. *)
Definition uninit_array (n : Z) : list Z := repeat 0 (Z.to_nat n).

(** ** Status translator *)

Definition HAL_ret_handler (HAL_status : HAL_StatusTypeDef) : ILI9341_Status :=
  if (HAL_status =? HAL_BUSY) || (HAL_status =? HAL_TIMEOUT) then ILI9341_EC_NR
  else if HAL_status =? HAL_ERROR then ILI9341_EC_ERR
  else HAL_status.

(** ** The driver *)

Section Driver.

Variable hal : transport.

(** *** Collaborators *)

Definition HAL_GPIO_WritePin (l : ili9341_line) (s : GPIO_PinState) : M unit :=
  modify (set_pin l s) ;;; emit (GPIO_Write l s).

Definition HAL_Delay (ms : Z) : M unit := emit (Delay ms).

(** [while(!__HAL_SPI_GET_FLAG(HSPI_INSTANCE, SPI_FLAG_TXE));] : the flag
    reads clear [txe_polls] times and then reads set. *)
Definition wait_SPI_FLAG_TXE : M unit :=
  fun w => (tt, w, [SPI_WaitTXE (txe_polls hal (spi_calls w))]).

(** The call hands over the first [size] bytes at [buffer]. *)
Definition HAL_SPI_Transmit_DMA (hspi : Z) (buffer : list Z) (size : Z)
  : M HAL_StatusTypeDef :=
  fun w =>
    let data := firstn (Z.to_nat size) buffer in
    let st := spi_status hal (spi_calls w) data in
    (st, count_spi_call w, [SPI_Transmit data size st]).

(** *** Pin helpers *)

Definition enable_cs_pin : M unit := HAL_GPIO_WritePin CS GPIO_PIN_RESET.
Definition disable_cs_pin : M unit := HAL_GPIO_WritePin CS GPIO_PIN_SET.
Definition set_dc_pin_to_data_mode : M unit := HAL_GPIO_WritePin DC GPIO_PIN_SET.
Definition set_dc_pin_to_command_mode : M unit :=
  HAL_GPIO_WritePin DC GPIO_PIN_RESET.

(** *** Transmit primitive *)

Definition ili9341_dma_spi_tx (buffer : list Z) (size : Z) : M ILI9341_Status :=
  wait_SPI_FLAG_TXE ;;;
  st <- (fun w => HAL_SPI_Transmit_DMA (p_hspi w) buffer size w) ;;
  pure (HAL_ret_handler st).

(** *** Reset procedures *)

Definition ili9341_hardware_reset : M unit :=
  HAL_GPIO_WritePin RESET GPIO_PIN_SET ;;;
  HAL_Delay 1 ;;;
  HAL_GPIO_WritePin RESET GPIO_PIN_RESET ;;;
  HAL_Delay 1 ;;;
  HAL_GPIO_WritePin RESET GPIO_PIN_SET ;;;
  HAL_Delay 5.

Definition ili9341_software_reset : M ILI9341_Status :=
  let ili9341_command := ILI9341_SOFTWARE_RESET_COMMAND in
  set_dc_pin_to_command_mode ;;;
  enable_cs_pin ;;;
  ret <- ili9341_dma_spi_tx [ili9341_command] ILI9341_COMMAND_SIZE ;;
  disable_cs_pin ;;;
  HAL_Delay 5 ;;;
  pure ret.

(** *** Configuration steps *)

Definition ili9341_configure_power_control_1 (gvdd_level : Z)
  : M ILI9341_Status :=
  let ili9341_command_or_data_value := ILI9341_POWER_CONTROL_1_COMMAND in
  set_dc_pin_to_command_mode ;;;
  enable_cs_pin ;;;
  ret <- ili9341_dma_spi_tx [ili9341_command_or_data_value] ILI9341_COMMAND_SIZE ;;
  if not_OK ret then
    disable_cs_pin ;;; pure ret
  else
    set_dc_pin_to_data_mode ;;;
    let ili9341_command_or_data_value := uint8 gvdd_level in
    ret <- ili9341_dma_spi_tx [ili9341_command_or_data_value]
             ILI9341_SINGLE_DATA_SIZE ;;
    disable_cs_pin ;;;
    pure ret.

Definition ili9341_configure_vcom_control_1 (vcomh_voltage vcoml_voltage : Z)
  : M ILI9341_Status :=
  let ili9341_command := ILI9341_VCOM_CONTROL_1_COMMAND in
  set_dc_pin_to_command_mode ;;;
  enable_cs_pin ;;;
  ret <- ili9341_dma_spi_tx [ili9341_command] ILI9341_COMMAND_SIZE ;;
  if not_OK ret then
    disable_cs_pin ;;; pure ret
  else
    set_dc_pin_to_data_mode ;;;
    let ili9341_data_value := [uint8 vcomh_voltage; uint8 vcoml_voltage] in
    ret <- ili9341_dma_spi_tx ili9341_data_value
             ILI9341_VCOM_CONTROL_1_DATA_SIZE ;;
    disable_cs_pin ;;;
    pure ret.

Definition ili9341_configure_vcom_control_2 (vmf_offset : Z)
  : M ILI9341_Status :=
  let ili9341_command_or_data_value := ILI9341_VCOM_CONTROL_2_COMMAND in
  set_dc_pin_to_command_mode ;;;
  enable_cs_pin ;;;
  ret <- ili9341_dma_spi_tx [ili9341_command_or_data_value] ILI9341_COMMAND_SIZE ;;
  if not_OK ret then
    disable_cs_pin ;;; pure ret
  else
    set_dc_pin_to_data_mode ;;;
    let ili9341_command_or_data_value := uint8 vmf_offset in
    ret <- ili9341_dma_spi_tx [ili9341_command_or_data_value]
             ILI9341_SINGLE_DATA_SIZE ;;
    disable_cs_pin ;;;
    pure ret.

(** The payload the Memory Access Control step builds in its locals. *)
Definition madctl_payload : ILI9341_MADCTL_def_t :=
  let ili9341_data_value := MADCTL_zero in
  let ili9341_data_value := set_mh 0 ili9341_data_value in
  let ili9341_data_value := set_bgr 1 ili9341_data_value in
  let ili9341_data_value := set_ml 0 ili9341_data_value in
  let wr_rd_dir := WRDIR_zero in
  let wr_rd_dir := set_mv 0 wr_rd_dir in
  let wr_rd_dir := set_mx 1 wr_rd_dir in
  let wr_rd_dir := set_my 0 wr_rd_dir in
  set_wr_rd_dir (WRDIR_byte wr_rd_dir) ili9341_data_value.

Definition ili9341_configure_memory_access_control : M ILI9341_Status :=
  let ili9341_command := ILI9341_MEMORY_ACCESS_CONTROL_COMMAND in
  set_dc_pin_to_command_mode ;;;
  enable_cs_pin ;;;
  ret <- ili9341_dma_spi_tx [ili9341_command] ILI9341_COMMAND_SIZE ;;
  if not_OK ret then
    disable_cs_pin ;;; pure ret
  else
    set_dc_pin_to_data_mode ;;;
    let ili9341_data_value := madctl_payload in
    ret <- ili9341_dma_spi_tx [MADCTL_byte ili9341_data_value]
             ILI9341_SINGLE_DATA_SIZE ;;
    disable_cs_pin ;;;
    pure ret.

(** The payload the Pixel Format step builds in its local. *)
Definition pixel_format_payload : ILI9341_PIXEL_FORMAT_def_t :=
  let ili9341_data_value := PIXFMT_zero in
  let ili9341_data_value := set_dbi 0x05 ili9341_data_value in
  set_dpi 0x05 ili9341_data_value.

Definition ili9341_configure_pixel_format : M ILI9341_Status :=
  let ili9341_command := ILI9341_PIXEL_FORMAT_COMMAND in
  modify (set_p_ili9341_fill_screen ili9341_fill_screen_16bpp) ;;;
  modify (set_ili9341_bpp_type_var ILI9341_BPP_16) ;;;
  set_dc_pin_to_command_mode ;;;
  enable_cs_pin ;;;
  ret <- ili9341_dma_spi_tx [ili9341_command] ILI9341_COMMAND_SIZE ;;
  if not_OK ret then
    disable_cs_pin ;;; pure ret
  else
    set_dc_pin_to_data_mode ;;;
    let ili9341_data_value := pixel_format_payload in
    ret <- ili9341_dma_spi_tx [PIXFMT_byte ili9341_data_value]
             ILI9341_SINGLE_DATA_SIZE ;;
    disable_cs_pin ;;;
    pure ret.

(** The stores of the Display Function Control step, [(index, value)] in
    program order. *)
Definition display_function_control_stores : list (nat * Z) :=
  [(0%nat, 0x08); (1%nat, 0x82); (2%nat, 0x27)].

Fixpoint array_stores (a : list Z) (stores : list (nat * Z)) : M (list Z) :=
  match stores with
  | [] => pure a
  | (i, v) :: rest => a' <- array_store a i v ;; array_stores a' rest
  end.

Definition ili9341_configure_display_function_control : M ILI9341_Status :=
  let ili9341_command := ILI9341_DISPLAY_FUNCTION_CONTROL_COMMAND in
  set_dc_pin_to_command_mode ;;;
  enable_cs_pin ;;;
  ret <- ili9341_dma_spi_tx [ili9341_command] ILI9341_COMMAND_SIZE ;;
  if not_OK ret then
    disable_cs_pin ;;; pure ret
  else
    set_dc_pin_to_data_mode ;;;
    let ili9341_data_value :=
      uninit_array ILI9341_DISPLAY_FUNCTION_CONTROL_DATA_SIZE in
    ili9341_data_value <-
      array_stores ili9341_data_value display_function_control_stores ;;
    ret <- ili9341_dma_spi_tx ili9341_data_value
             ILI9341_DISPLAY_FUNCTION_CONTROL_DATA_SIZE ;;
    disable_cs_pin ;;;
    pure ret.

Definition ili9341_exit_sleep_mode : M ILI9341_Status :=
  let ili9341_command := ILI9341_SLEEP_OUT_COMMAND in
  set_dc_pin_to_command_mode ;;;
  enable_cs_pin ;;;
  ret <- ili9341_dma_spi_tx [ili9341_command] ILI9341_COMMAND_SIZE ;;
  disable_cs_pin ;;;
  HAL_Delay 5 ;;;
  pure ret.

Definition ili9341_turn_display_on : M ILI9341_Status :=
  let ili9341_command := ILI9341_DISPLAY_ON_COMMAND in
  set_dc_pin_to_command_mode ;;;
  enable_cs_pin ;;;
  ret <- ili9341_dma_spi_tx [ili9341_command] ILI9341_COMMAND_SIZE ;;
  disable_cs_pin ;;;
  pure ret.

(** *** Mode select *)

Definition set_ili9341_bpp_type (bpp : ILI9341_BPP_t) : M ILI9341_Status :=
  if bpp =? ILI9341_BPP_16 then
    modify (set_p_ili9341_fill_screen ili9341_fill_screen_16bpp) ;;;
    modify (set_ili9341_bpp_type_var bpp) ;;;
    pure ILI9341_EC_OK
  else if bpp =? ILI9341_BPP_18 then
    modify (set_p_ili9341_fill_screen ili9341_fill_screen_18bpp) ;;;
    modify (set_ili9341_bpp_type_var bpp) ;;;
    pure ILI9341_EC_OK
  else pure ILI9341_EC_ERR.

(** *** Initialization sequencer *)

Definition init_ili9341_module (hspi peripherals : Z) : M ILI9341_Status :=
  modify (set_p_hspi hspi) ;;;
  modify (set_p_ili9341_peripherals peripherals) ;;;
  disable_cs_pin ;;;
  ili9341_hardware_reset ;;;
  ret <- ili9341_software_reset ;;
  if not_OK ret then pure ret else
  ret <- ili9341_configure_power_control_1 ILI9341_GVDD_4V6 ;;
  if not_OK ret then pure ret else
  ret <- ili9341_configure_vcom_control_1 ILI9341_VCOMH_4V25
           ILI9341_VCOML_minus_1V5 ;;
  if not_OK ret then pure ret else
  ret <- ili9341_configure_vcom_control_2 ILI9341_VMF_minus_58 ;;
  if not_OK ret then pure ret else
  ret <- ili9341_configure_memory_access_control ;;
  if not_OK ret then pure ret else
  ret <- ili9341_configure_pixel_format ;;
  if not_OK ret then pure ret else
  ret <- ili9341_configure_display_function_control ;;
  if not_OK ret then pure ret else
  ret <- ili9341_exit_sleep_mode ;;
  if not_OK ret then pure ret else
  ret <- ili9341_turn_display_on ;;
  if not_OK ret then pure ret else
  pure ILI9341_EC_OK.

(** The nine steps of the sequencer, in the order it calls them. *)
Definition init_steps : list (M ILI9341_Status) :=
  [ ili9341_software_reset;
    ili9341_configure_power_control_1 ILI9341_GVDD_4V6;
    ili9341_configure_vcom_control_1 ILI9341_VCOMH_4V25 ILI9341_VCOML_minus_1V5;
    ili9341_configure_vcom_control_2 ILI9341_VMF_minus_58;
    ili9341_configure_memory_access_control;
    ili9341_configure_pixel_format;
    ili9341_configure_display_function_control;
    ili9341_exit_sleep_mode;
    ili9341_turn_display_on ].

(** What the sequencer does before its first step. *)
Definition init_prologue (hspi peripherals : Z) : M unit :=
  modify (set_p_hspi hspi) ;;;
  modify (set_p_ili9341_peripherals peripherals) ;;;
  disable_cs_pin ;;;
  ili9341_hardware_reset.

End Driver.

(** ** Observers of a log *)

Inductive frame_kind := CommandFrame | DataFrame.

(** The D/C line low announces a command, high announces data. *)
Definition kind_of_DC (dc : GPIO_PinState) : frame_kind :=
  match dc with
  | GPIO_PIN_RESET => CommandFrame
  | GPIO_PIN_SET => DataFrame
  end.

(** The frames a log puts on the bus, each with the kind the D/C line gives it
    at the time of the transmit call; [dc] is the level of the line before
    the first event. *)
Fixpoint frames (dc : GPIO_PinState) (t : list event)
  : list (frame_kind * list Z) :=
  match t with
  | [] => []
  | GPIO_Write DC s :: t' => frames s t'
  | SPI_Transmit data _ _ :: t' => (kind_of_DC dc, data) :: frames dc t'
  | _ :: t' => frames dc t'
  end.

Definition command_opcodes (dc : GPIO_PinState) (t : list event) : list Z :=
  flat_map (fun f => match fst f with CommandFrame => snd f | DataFrame => [] end)
    (frames dc t).

Definition data_frames (dc : GPIO_PinState) (t : list event) : list (list Z) :=
  flat_map (fun f => match fst f with CommandFrame => [] | DataFrame => [snd f] end)
    (frames dc t).

(** The transmit calls of a log: the bytes handed over and the size passed. *)
Fixpoint transmits (t : list event) : list (list Z * Z) :=
  match t with
  | [] => []
  | SPI_Transmit data size _ :: t' => (data, size) :: transmits t'
  | _ :: t' => transmits t'
  end.

(** The stores of a log that fell outside their array. *)
Fixpoint stray_stores (t : list event) : list (nat * Z) :=
  match t with
  | [] => []
  | StrayStore i v :: t' => (i, v) :: stray_stores t'
  | _ :: t' => stray_stores t'
  end.

Definition distinct_command_opcodes (dc : GPIO_PinState) (t : list event) : nat :=
  length (nodup Z.eq_dec (command_opcodes dc t)).

(** A mock transport that accepts every transmit at once. *)
Definition always_OK : transport := mkTransport (fun _ _ => HAL_OK) (fun _ => O).

(** A mock transport that answers [st] to call number [k] and accepts every
    other call. *)
Definition answers_at (k : nat) (st : HAL_StatusTypeDef) : transport :=
  mkTransport (fun n _ => if Nat.eqb n k then st else HAL_OK) (fun _ => O).

(** The world at power-on: statics zero-initialised, lines low. *)
Definition power_on : world :=
  mkWorld 0 0 0 None GPIO_PIN_RESET GPIO_PIN_RESET GPIO_PIN_RESET O.

(** Addresses of an SPI handle and of a peripherals structure, as an
    application would pass them to the sequencer. *)
Definition hspi1 : Z := 0x20000010.
Definition peripherals1 : Z := 0x20000080.

(** Running a list of steps in which every step returns OK: the world it
    ends in and the log it leaves. *)
Inductive all_OK : list (M ILI9341_Status) -> world -> world -> list event -> Prop :=
| all_OK_nil w : all_OK [] w w []
| all_OK_cons s ss w w1 w2 e1 e2 :
    s w = (ILI9341_EC_OK, w1, e1) ->
    all_OK ss w1 w2 e2 ->
    all_OK (s :: ss) w w2 (e1 ++ e2).

(** The sequencer's control flow over a list of steps: stop at the first
    verdict that is not OK. *)
Fixpoint run_steps (steps : list (M ILI9341_Status)) : M ILI9341_Status :=
  match steps with
  | [] => pure ILI9341_EC_OK
  | s :: rest => ret <- s ;; if not_OK ret then pure ret else run_steps rest
  end.

(** The world after [n] earlier calls of a step. *)
Fixpoint after_calls {A} (n : nat) (m : M A) (w : world) : world :=
  match n with
  | O => w
  | S k => after_calls k m (final (m w))
  end.

(** The Memory Access Control byte as the datasheet lays it out: bits 0-1
    reserved, MH at bit 2, BGR at bit 3, ML at bit 4, MV at bit 5, MX at
    bit 6, MY at bit 7. *)
Definition madctl_layout (MH BGR ML MV MX MY : Z) : Z :=
  MH * 4 + BGR * 8 + ML * 16 + MV * 32 + MX * 64 + MY * 128.

(** The Pixel Format byte as the datasheet lays it out: DBI at bits 0-2,
    bit 3 zero, DPI at bits 4-6, bit 7 zero. *)
Definition pixel_format_layout (DBI DPI : Z) : Z := DBI + DPI * 16.

(** ** Further observers *)

(** The delays a log requests, in order. *)
Fixpoint delays (t : list event) : list Z :=
  match t with
  | [] => []
  | Delay ms :: t' => ms :: delays t'
  | _ :: t' => delays t'
  end.

(** The statuses the transport answered, in order. *)
Fixpoint statuses (t : list event) : list HAL_StatusTypeDef :=
  match t with
  | [] => []
  | SPI_Transmit _ _ st :: t' => st :: statuses t'
  | _ :: t' => statuses t'
  end.

(** Chip-select bracketing of a log, [cs] being the level of the line before
    its first event: the line is never driven low while it is low, every
    transmit happens while it is low, and it is high at the end. *)
Fixpoint cs_bracketed (cs : GPIO_PinState) (t : list event) : bool :=
  match t with
  | [] => match cs with GPIO_PIN_SET => true | GPIO_PIN_RESET => false end
  | GPIO_Write CS GPIO_PIN_RESET :: t' =>
      match cs with
      | GPIO_PIN_SET => cs_bracketed GPIO_PIN_RESET t'
      | GPIO_PIN_RESET => false
      end
  | GPIO_Write CS GPIO_PIN_SET :: t' => cs_bracketed GPIO_PIN_SET t'
  | SPI_Transmit _ _ _ :: t' =>
      match cs with
      | GPIO_PIN_RESET => cs_bracketed cs t'
      | GPIO_PIN_SET => false
      end
  | _ :: t' => cs_bracketed cs t'
  end.

(** Data/command discipline of a log, [dc] being the level of the D/C line
    before its first event and [k] the number of transmits made since
    chip-select was last driven low: chip-select is driven low only while
    D/C is low, the first transmit after that is one byte sent with D/C low,
    and every later transmit of the same frame is sent with D/C high. *)
Fixpoint dc_disciplined (dc : GPIO_PinState) (k : nat) (t : list event) : bool :=
  match t with
  | [] => true
  | GPIO_Write DC s :: t' => dc_disciplined s k t'
  | GPIO_Write CS GPIO_PIN_RESET :: t' =>
      match dc with
      | GPIO_PIN_RESET => dc_disciplined dc O t'
      | GPIO_PIN_SET => false
      end
  | SPI_Transmit data _ _ :: t' =>
      match k, dc with
      | O, GPIO_PIN_RESET => Nat.eqb (length data) 1 && dc_disciplined dc 1 t'
      | S _, GPIO_PIN_SET => dc_disciplined dc (S k) t'
      | _, _ => false
      end
  | _ :: t' => dc_disciplined dc k t'
  end.

(** Waits on the TXE flag and transmits come in pairs: every wait is
    directly followed by a transmit and every transmit directly follows a
    wait, so that no wait comes after a transmit without belonging to the
    next one. *)
Fixpoint txe_paired (t : list event) : bool :=
  match t with
  | [] => true
  | SPI_WaitTXE _ :: SPI_Transmit _ _ _ :: t' => txe_paired t'
  | SPI_WaitTXE _ :: _ => false
  | SPI_Transmit _ _ _ :: _ => false
  | _ :: t' => txe_paired t'
  end.

(** The stored mode and the fill-screen pointer agree. *)
Definition mode_consistent (w : world) : Prop :=
  (ili9341_bpp_type w = ILI9341_BPP_16 /\
   p_ili9341_fill_screen w = Some ili9341_fill_screen_16bpp) \/
  (ili9341_bpp_type w = ILI9341_BPP_18 /\
   p_ili9341_fill_screen w = Some ili9341_fill_screen_18bpp).

(** The steps that send a command and then a payload, for any arguments. *)
Definition payload_steps (hal : transport)
  (gvdd_level vcomh_voltage vcoml_voltage vmf_offset : Z)
  : list (M ILI9341_Status) :=
  [ ili9341_configure_power_control_1 hal gvdd_level;
    ili9341_configure_vcom_control_1 hal vcomh_voltage vcoml_voltage;
    ili9341_configure_vcom_control_2 hal vmf_offset;
    ili9341_configure_memory_access_control hal;
    ili9341_configure_pixel_format hal;
    ili9341_configure_display_function_control hal ].

(** The steps that send a command alone. *)
Definition command_steps (hal : transport) : list (M ILI9341_Status) :=
  [ ili9341_software_reset hal;
    ili9341_exit_sleep_mode hal;
    ili9341_turn_display_on hal ].

(** ** The first draft of the sequencer

    The repository keeps an earlier state of the driver, whose helpers are
    the ones above and whose sequencer stops after the software reset. *)
Module Draft.

Definition init_ili9341_module (hal : transport) (hspi peripherals : Z)
  : M ILI9341_Status :=
  modify (set_p_hspi hspi) ;;;
  modify (set_p_ili9341_peripherals peripherals) ;;;
  disable_cs_pin ;;;
  ili9341_hardware_reset ;;;
  ret <- ili9341_software_reset hal ;;
  if not_OK ret then pure ILI9341_EC_ERR
  else pure ILI9341_EC_OK.

End Draft.

(** * Properties *)

(** ** Status translator *)

(** C3. The status translator maps busy and timeout to NO_RESPONSE, the hard
    error code to ERROR, and returns every other value unchanged.  It is a
    function of its argument alone: the transmit primitive that calls it
    leaves the world as the HAL call left it (one more transmit counted) and
    logs the TXE wait and the HAL call, nothing else. *)
Theorem HAL_ret_handler_translation (HAL_status : HAL_StatusTypeDef) :
  (HAL_status = HAL_BUSY \/ HAL_status = HAL_TIMEOUT ->
   HAL_ret_handler HAL_status = ILI9341_EC_NR) /\
  (HAL_status = HAL_ERROR -> HAL_ret_handler HAL_status = ILI9341_EC_ERR) /\
  (HAL_status <> HAL_BUSY -> HAL_status <> HAL_TIMEOUT ->
   HAL_status <> HAL_ERROR -> HAL_ret_handler HAL_status = HAL_status) /\
  (forall hal buffer size w,
     let st := spi_status hal (spi_calls w) (firstn (Z.to_nat size) buffer) in
     ili9341_dma_spi_tx hal buffer size w =
     (HAL_ret_handler st, count_spi_call w,
      [SPI_WaitTXE (txe_polls hal (spi_calls w));
       SPI_Transmit (firstn (Z.to_nat size) buffer) size st])).
Proof.
  unfold HAL_ret_handler.
  repeat split.
  - intros [-> | ->]; reflexivity.
  - intros ->; reflexivity.
  - intros Hb Ht He.
    apply Z.eqb_neq in Hb, Ht, He.
    rewrite Hb, Ht, He. reflexivity.
Qed.

Lemma HAL_ret_handler_translation_witness :
  HAL_ret_handler HAL_TIMEOUT = ILI9341_EC_NR /\
  HAL_ret_handler HAL_ERROR = ILI9341_EC_ERR /\
  HAL_ret_handler 7 = 7.
Proof.
  split; [| split].
  - apply (HAL_ret_handler_translation HAL_TIMEOUT). right. reflexivity.
  - apply (HAL_ret_handler_translation HAL_ERROR). reflexivity.
  - apply (HAL_ret_handler_translation 7); unfold HAL_BUSY, HAL_TIMEOUT, HAL_ERROR; lia.
Defined.

(** Success is the one HAL status the translator turns into OK. *)
Lemma HAL_ret_handler_OK_iff (st : HAL_StatusTypeDef) :
  HAL_ret_handler st = ILI9341_EC_OK <-> st = HAL_OK.
Proof.
  unfold HAL_ret_handler, HAL_BUSY, HAL_TIMEOUT, HAL_ERROR, HAL_OK,
    ILI9341_EC_NR, ILI9341_EC_ERR, ILI9341_EC_OK.
  destruct (Z.eqb_spec st 2); [cbn; lia|].
  destruct (Z.eqb_spec st 3); [cbn; lia|].
  destruct (Z.eqb_spec st 1); cbn; lia.
Qed.

(** ** Hardware reset *)

(** C8. Whatever the world it starts in, the hardware reset procedure
    drives the reset line high, waits 1, drives it low, waits 1, drives it
    high, waits 5 (so at least 1, 1 and 5 time units), and does nothing else;
    it returns no value and changes nothing but the level of the reset
    line. *)
Theorem hardware_reset_sequence (w : world) :
  ili9341_hardware_reset w =
  (tt, set_pin RESET GPIO_PIN_SET w,
   [GPIO_Write RESET GPIO_PIN_SET; Delay 1;
    GPIO_Write RESET GPIO_PIN_RESET; Delay 1;
    GPIO_Write RESET GPIO_PIN_SET; Delay 5]).
Proof. destruct w. reflexivity. Qed.

(** ** Configuration steps *)

(** A step's outcome depends on the transport only through the verdicts of
    its transmits: case analysis on each of them. *)
Ltac unfold_drv :=
  unfold init_ili9341_module, ili9341_software_reset,
    ili9341_configure_power_control_1, ili9341_configure_vcom_control_1,
    ili9341_configure_vcom_control_2, ili9341_configure_memory_access_control,
    ili9341_configure_pixel_format, ili9341_configure_display_function_control,
    ili9341_exit_sleep_mode, ili9341_turn_display_on, ili9341_hardware_reset,
    ili9341_dma_spi_tx, wait_SPI_FLAG_TXE, HAL_SPI_Transmit_DMA,
    enable_cs_pin, disable_cs_pin, set_dc_pin_to_data_mode,
    set_dc_pin_to_command_mode, HAL_GPIO_WritePin, HAL_Delay,
    modify, emit, pure, bind.

Ltac run_drv :=
  repeat (progress (unfold_drv; cbn;
                    change (Pos.to_nat 1) with 1%nat;
                    change (Pos.to_nat 2) with 2%nat)).

Ltac step_cases :=
  repeat match goal with
         | |- context [not_OK ?r] => destruct (not_OK r); run_drv
         end.

(** C4. Every step of the driver, for every argument and every transport
    behaviour, returns with the chip-select line high. *)
Theorem chip_select_released (hal : transport) (w : world) :
  pin_CS (final (ili9341_software_reset hal w)) = GPIO_PIN_SET /\
  (forall gvdd_level,
     pin_CS (final (ili9341_configure_power_control_1 hal gvdd_level w))
     = GPIO_PIN_SET) /\
  (forall vcomh_voltage vcoml_voltage,
     pin_CS (final (ili9341_configure_vcom_control_1 hal vcomh_voltage
                      vcoml_voltage w)) = GPIO_PIN_SET) /\
  (forall vmf_offset,
     pin_CS (final (ili9341_configure_vcom_control_2 hal vmf_offset w))
     = GPIO_PIN_SET) /\
  pin_CS (final (ili9341_configure_memory_access_control hal w)) = GPIO_PIN_SET /\
  pin_CS (final (ili9341_configure_pixel_format hal w)) = GPIO_PIN_SET /\
  pin_CS (final (ili9341_configure_display_function_control hal w))
  = GPIO_PIN_SET /\
  pin_CS (final (ili9341_exit_sleep_mode hal w)) = GPIO_PIN_SET /\
  pin_CS (final (ili9341_turn_display_on hal w)) = GPIO_PIN_SET.
Proof.
  destruct w.
  repeat split; intros; run_drv; step_cases; reflexivity.
Qed.

(** C10. For every transport behaviour, hence also when the command or the
    data transmit fails, the Pixel Format step returns with the stored mode
    at 16 bits per pixel and the fill-screen pointer at the 16-bpp routine,
    whatever they were before; the two pointer statics are left as they
    were. *)
Theorem pixel_format_commits_mode (hal : transport) (w : world) :
  ili9341_bpp_type (final (ili9341_configure_pixel_format hal w))
  = ILI9341_BPP_16 /\
  p_ili9341_fill_screen (final (ili9341_configure_pixel_format hal w))
  = Some ili9341_fill_screen_16bpp /\
  p_hspi (final (ili9341_configure_pixel_format hal w)) = p_hspi w /\
  p_ili9341_peripherals (final (ili9341_configure_pixel_format hal w))
  = p_ili9341_peripherals w.
Proof.
  destruct w.
  repeat split; run_drv; step_cases; reflexivity.
Qed.

(** C5. The Memory Access Control payload for MH=0, BGR=1, ML=0, MV=0, MX=1,
    MY=0 is the byte 0x48 of the documented layout, and the step puts exactly
    one data frame of that one byte on the bus when its command is accepted
    (and none when it is not); the size passed with it is 1. *)
Theorem memory_access_control_byte (hal : transport) (w : world) :
  (mh madctl_payload, bgr madctl_payload, ml madctl_payload,
   wr_rd_dir madctl_payload) = (0, 1, 0, WRDIR_byte (mkWRDIR 0 1 0 0)) /\
  MADCTL_byte madctl_payload = madctl_layout 0 1 0 0 1 0 /\
  madctl_layout 0 1 0 0 1 0 = 0x48 /\
  data_frames (pin_DC w) (log (ili9341_configure_memory_access_control hal w))
  = (if not_OK (HAL_ret_handler
                  (spi_status hal (spi_calls w)
                     [ILI9341_MEMORY_ACCESS_CONTROL_COMMAND]))
     then [] else [[0x48]]) /\
  transmits (log (ili9341_configure_memory_access_control hal w))
  = (if not_OK (HAL_ret_handler
                  (spi_status hal (spi_calls w)
                     [ILI9341_MEMORY_ACCESS_CONTROL_COMMAND]))
     then [([ILI9341_MEMORY_ACCESS_CONTROL_COMMAND], ILI9341_COMMAND_SIZE)]
     else [([ILI9341_MEMORY_ACCESS_CONTROL_COMMAND], ILI9341_COMMAND_SIZE);
           ([0x48], ILI9341_SINGLE_DATA_SIZE)]).
Proof.
  destruct w.
  repeat split; run_drv; step_cases; reflexivity.
Qed.

(** C6. The Pixel Format payload is the byte 0x55: DBI = DPI = 0x05, bits 3
    and 7 zero.  However many times the step has run before, a call puts
    that one byte on the bus as its only data frame when its command is
    accepted, and no data frame otherwise. *)
Theorem pixel_format_byte (hal : transport) (n : nat) (w : world) :
  let w' := after_calls n (ili9341_configure_pixel_format hal) w in
  (dbi pixel_format_payload, d3 pixel_format_payload,
   dpi pixel_format_payload, d7 pixel_format_payload) = (0x05, 0, 0x05, 0) /\
  PIXFMT_byte pixel_format_payload = pixel_format_layout 0x05 0x05 /\
  pixel_format_layout 0x05 0x05 = 0x55 /\
  data_frames (pin_DC w') (log (ili9341_configure_pixel_format hal w'))
  = (if not_OK (HAL_ret_handler
                  (spi_status hal (spi_calls w') [ILI9341_PIXEL_FORMAT_COMMAND]))
     then [] else [[0x55]]).
Proof.
  intros w'. generalize w'. clear. intros w.
  destruct w.
  repeat split; run_drv; step_cases; reflexivity.
Qed.

(** The byte image of a Memory Access Control structure filled through its
    field stores follows the documented layout, for every choice of the six
    one-bit settings. *)
Lemma MADCTL_byte_layout (MH BGR ML MV MX MY : bool) :
  let wr := set_my (Z.b2z MY) (set_mx (Z.b2z MX) (set_mv (Z.b2z MV) WRDIR_zero)) in
  MADCTL_byte
    (set_wr_rd_dir (WRDIR_byte wr)
       (set_ml (Z.b2z ML) (set_bgr (Z.b2z BGR) (set_mh (Z.b2z MH) MADCTL_zero))))
  = madctl_layout (Z.b2z MH) (Z.b2z BGR) (Z.b2z ML) (Z.b2z MV) (Z.b2z MX) (Z.b2z MY).
Proof. destruct MH, BGR, ML, MV, MX, MY; reflexivity. Qed.

(** ** Display Function Control *)

(** C9. The Display Function Control step declares its payload array with
    ILI9341_DISPLAY_FUNCTION_CONTROL_DATA_SIZE = 2 elements and stores through
    the indices 0, 1 and 2: the third store is outside the array, and the
    step stores three bytes while it passes a byte count of 2 to the transmit
    call, so that the third byte, 0x27, is in no transmit.  Evaluated on a
    run of the sequencer from power-on, on the transport that accepts every
    transmit. *)
Theorem display_function_control_out_of_bounds :
  let r := init_ili9341_module always_OK hspi1 peripherals1 power_on in
  map fst display_function_control_stores = [0%nat; 1%nat; 2%nat] /\
  length (uninit_array ILI9341_DISPLAY_FUNCTION_CONTROL_DATA_SIZE) = 2%nat /\
  stray_stores (log r) = [(2%nat, 0x27)] /\
  In ([0x08; 0x82], ILI9341_DISPLAY_FUNCTION_CONTROL_DATA_SIZE)
    (transmits (log r)) /\
  existsb (fun tx => existsb (Z.eqb 0x27) (fst tx)) (transmits (log r)) = false /\
  Z.of_nat (length display_function_control_stores) = 3 /\
  ILI9341_DISPLAY_FUNCTION_CONTROL_DATA_SIZE = 2.
Proof.
  repeat split.
  vm_compute. tauto.
Qed.

(** The stray store happens on every run of the step that gets its command
    accepted, whatever the world. *)
Lemma display_function_control_stray_store (hal : transport) (w : world) :
  stray_stores (log (ili9341_configure_display_function_control hal w))
  = (if not_OK (HAL_ret_handler
                  (spi_status hal (spi_calls w)
                     [ILI9341_DISPLAY_FUNCTION_CONTROL_COMMAND]))
     then [] else [(2%nat, 0x27)]).
Proof.
  destruct w. run_drv; step_cases; reflexivity.
Qed.

(** ** Initialization sequencer *)

(** The sequencer is its prologue followed by [run_steps] over its nine
    steps. *)
Lemma nested_returns_run_steps (s1 s2 s3 s4 s5 s6 s7 s8 s9 : M ILI9341_Status)
  (w : world) :
  (ret <- s1 ;; if not_OK ret then pure ret else
   ret <- s2 ;; if not_OK ret then pure ret else
   ret <- s3 ;; if not_OK ret then pure ret else
   ret <- s4 ;; if not_OK ret then pure ret else
   ret <- s5 ;; if not_OK ret then pure ret else
   ret <- s6 ;; if not_OK ret then pure ret else
   ret <- s7 ;; if not_OK ret then pure ret else
   ret <- s8 ;; if not_OK ret then pure ret else
   ret <- s9 ;; if not_OK ret then pure ret else
   pure ILI9341_EC_OK) w
  = run_steps [s1; s2; s3; s4; s5; s6; s7; s8; s9] w.
Proof. reflexivity. Qed.

Lemma bind_assoc {A B C} (m : M A) (k : A -> M B) (h : B -> M C) (w : world) :
  bind (bind m k) h w = bind m (fun a => bind (k a) h) w.
Proof.
  unfold bind.
  destruct (m w) as [[a w1] e1].
  destruct (k a w1) as [[b w2] e2].
  destruct (h b w2) as [[c w3] e3].
  rewrite app_assoc. reflexivity.
Qed.

Lemma init_as_run_steps (hal : transport) (hspi peripherals : Z) (w : world) :
  init_ili9341_module hal hspi peripherals w
  = (init_prologue hspi peripherals ;;; run_steps (init_steps hal)) w.
Proof.
  change (init_ili9341_module hal hspi peripherals)
    with (modify (set_p_hspi hspi) ;;;
          modify (set_p_ili9341_peripherals peripherals) ;;;
          disable_cs_pin ;;;
          ili9341_hardware_reset ;;;
          run_steps (init_steps hal)).
  generalize (run_steps (init_steps hal)). intros S.
  destruct w. cbn.
  match goal with |- context [S ?w'] => destruct (S w') as [[r w1] e] end.
  reflexivity.
Qed.

Lemma run_steps_all_OK (steps : list (M ILI9341_Status)) (w w' : world)
  (e : list event) :
  all_OK steps w w' e -> run_steps steps w = (ILI9341_EC_OK, w', e).
Proof.
  induction 1 as [w | s ss w w1 w2 e1 e2 Hs Hss IH]; [reflexivity|].
  cbn. unfold bind. rewrite Hs. cbn. rewrite IH. reflexivity.
Qed.

Lemma run_steps_OK_inv (steps : list (M ILI9341_Status)) :
  forall w w' e,
    run_steps steps w = (ILI9341_EC_OK, w', e) -> all_OK steps w w' e.
Proof.
  induction steps as [| s ss IH]; intros w w' e H.
  - cbn in H. inversion H. constructor.
  - cbn in H. unfold bind in H.
    destruct (s w) as [[r w1] e1] eqn:Hs.
    unfold not_OK in H.
    destruct (Z.eqb_spec r ILI9341_EC_OK) as [-> | Hr]; cbn in H.
    + destruct (run_steps ss w1) as [[r2 w2] e2] eqn:Hss.
      inversion H; subst.
      econstructor; [exact Hs | apply IH; exact Hss].
    + inversion H; subst. contradiction.
Qed.

Lemma run_steps_first_failure (pre post : list (M ILI9341_Status))
  (s : M ILI9341_Status) (w w0 w1 : world) (e0 e1 : list event)
  (r : ILI9341_Status) :
  all_OK pre w w0 e0 ->
  s w0 = (r, w1, e1) ->
  r <> ILI9341_EC_OK ->
  run_steps (pre ++ s :: post) w = (r, w1, e0 ++ e1).
Proof.
  intros Hpre Hs Hr.
  induction Hpre as [w | s' ss w wa wb ea eb Hs' Hss IH].
  - cbn. unfold bind. rewrite Hs.
    unfold not_OK. apply Z.eqb_neq in Hr. rewrite Hr. cbn.
    rewrite app_nil_r. reflexivity.
  - cbn. unfold bind. rewrite Hs'. cbn.
    rewrite (IH Hs). rewrite app_assoc. reflexivity.
Qed.

(** Evaluation of a run on a transport known to accept every transmit. *)
Ltac run_accepting H :=
  repeat (progress (run_drv; rewrite ?H));
  change (HAL_ret_handler HAL_OK) with ILI9341_EC_OK;
  run_drv.

(** With the stray store of the Display Function Control step taken as
    harmless, as [array_store] takes it: on a transport that reports success
    for every transmit, the sequencer de-asserts chip-select, drives the
    reset line high, low and high again with delays of 1, 1 and 5, then
    sends the command opcodes 0x01, 0xC0, 0xC5, 0xC7, 0x36, 0x3A, 0xB6, 0x11,
    0x29 in this order, and returns OK. *)
Lemma init_success_sequence (hal : transport) (hspi peripherals : Z)
  (w : world) :
  (forall n data, spi_status hal n data = HAL_OK) ->
  exists rest,
    log (init_ili9341_module hal hspi peripherals w)
    = [GPIO_Write CS GPIO_PIN_SET;
       GPIO_Write RESET GPIO_PIN_SET; Delay 1;
       GPIO_Write RESET GPIO_PIN_RESET; Delay 1;
       GPIO_Write RESET GPIO_PIN_SET; Delay 5] ++ rest /\
    command_opcodes (pin_DC w) rest
    = [ILI9341_SOFTWARE_RESET_COMMAND; ILI9341_POWER_CONTROL_1_COMMAND;
       ILI9341_VCOM_CONTROL_1_COMMAND; ILI9341_VCOM_CONTROL_2_COMMAND;
       ILI9341_MEMORY_ACCESS_CONTROL_COMMAND; ILI9341_PIXEL_FORMAT_COMMAND;
       ILI9341_DISPLAY_FUNCTION_CONTROL_COMMAND; ILI9341_SLEEP_OUT_COMMAND;
       ILI9341_DISPLAY_ON_COMMAND] /\
    value (init_ili9341_module hal hspi peripherals w) = ILI9341_EC_OK.
Proof.
  intros H. destruct w.
  eexists. split; [|split].
  - run_accepting H. reflexivity.
  - reflexivity.
  - run_accepting H. reflexivity.
Qed.

Lemma init_success_sequence_witness :
  (forall n data, spi_status always_OK n data = HAL_OK) /\
  exists rest,
    log (init_ili9341_module always_OK hspi1 peripherals1 power_on)
    = [GPIO_Write CS GPIO_PIN_SET;
       GPIO_Write RESET GPIO_PIN_SET; Delay 1;
       GPIO_Write RESET GPIO_PIN_RESET; Delay 1;
       GPIO_Write RESET GPIO_PIN_SET; Delay 5] ++ rest /\
    command_opcodes (pin_DC power_on) rest
    = [0x01; 0xC0; 0xC5; 0xC7; 0x36; 0x3A; 0xB6; 0x11; 0x29] /\
    value (init_ili9341_module always_OK hspi1 peripherals1 power_on) = ILI9341_EC_OK.
Proof.
  split.
  - intros n data. reflexivity.
  - apply (init_success_sequence always_OK hspi1 peripherals1 power_on).
    intros n data. reflexivity.
Defined.


(** C7 as stated (8 distinct opcodes) fails on the always-accepting
    transport: the run sends nine distinct command opcodes. *)
Lemma eight_distinct_opcodes_refuted :
  distinct_command_opcodes (pin_DC power_on)
    (log (init_ili9341_module always_OK hspi1 peripherals1 power_on)) <> 8%nat.
Proof. vm_compute. discriminate. Qed.

(** C7, amended. In a run in which every transmit reports success, the
    sequencer sends 9 distinct command opcodes. *)
Theorem nine_distinct_opcodes (hal : transport) (hspi peripherals : Z)
  (w : world) :
  (forall n data, spi_status hal n data = HAL_OK) ->
  distinct_command_opcodes (pin_DC w)
    (log (init_ili9341_module hal hspi peripherals w)) = 9%nat.
Proof.
  intros H. destruct w.
  run_accepting H. reflexivity.
Qed.

Lemma nine_distinct_opcodes_witness :
  (forall n data, spi_status always_OK n data = HAL_OK) /\
  distinct_command_opcodes (pin_DC power_on)
    (log (init_ili9341_module always_OK hspi1 peripherals1 power_on)) = 9%nat.
Proof.
  split.
  - intros n data. reflexivity.
  - apply (nine_distinct_opcodes always_OK hspi1 peripherals1 power_on).
    intros n data. reflexivity.
Defined.

(** C2. The sequencer returns the verdict of the first step that does not
    return OK, as that step returned it, in the world that step left and
    with no event after that step's: whenever the steps before [s] all
    return OK and [s] returns [r <> OK], the run is the prologue, those
    steps and [s], and its value is [r].  In particular, when the transport
    accepts the five transmits before the VCOM Control 2 step and answers
    HAL_ERROR to that step's command or data transmit, the sequencer returns
    ERROR, the commands sent are 0x01, 0xC0, 0xC5, 0xC7 and no more, and the
    failed transmit is the last one. *)
Theorem init_stops_at_first_failure (hal : transport) (hspi peripherals : Z)
  (w : world) :
  (forall pre s post wp ep w0 e0 r w1 e1,
     init_steps hal = pre ++ s :: post ->
     init_prologue hspi peripherals w = (tt, wp, ep) ->
     all_OK pre wp w0 e0 ->
     s w0 = (r, w1, e1) ->
     r <> ILI9341_EC_OK ->
     init_ili9341_module hal hspi peripherals w = (r, w1, ep ++ e0 ++ e1)) /\
  ((forall k data, (k < 5)%nat ->
      spi_status hal (k + spi_calls w) data = HAL_OK) ->
   spi_status hal (5 + spi_calls w) [ILI9341_VCOM_CONTROL_2_COMMAND] = HAL_ERROR \/
   (spi_status hal (5 + spi_calls w) [ILI9341_VCOM_CONTROL_2_COMMAND] = HAL_OK /\
    spi_status hal (6 + spi_calls w) [uint8 ILI9341_VMF_minus_58] = HAL_ERROR) ->
   let r := init_ili9341_module hal hspi peripherals w in
   value r = ILI9341_EC_ERR /\
   command_opcodes (pin_DC w) (log r)
   = [ILI9341_SOFTWARE_RESET_COMMAND; ILI9341_POWER_CONTROL_1_COMMAND;
      ILI9341_VCOM_CONTROL_1_COMMAND; ILI9341_VCOM_CONTROL_2_COMMAND] /\
   (exists data size,
      last (transmits (log r)) ([], 0) = (data, size) /\
      (data = [ILI9341_VCOM_CONTROL_2_COMMAND] \/
       data = [uint8 ILI9341_VMF_minus_58]))).
Proof.
  split.
  - intros pre s post wp ep w0 e0 r w1 e1 Hsteps Hpro Hpre Hs Hr.
    rewrite init_as_run_steps. unfold bind at 1.
    rewrite Hpro, Hsteps.
    rewrite (run_steps_first_failure pre post s wp w0 w1 e0 e1 r Hpre Hs Hr).
    reflexivity.
  - intros Hpre Hfail. destruct w.
    pose proof (fun d => Hpre 0%nat d ltac:(lia)) as H0.
    pose proof (fun d => Hpre 1%nat d ltac:(lia)) as H1.
    pose proof (fun d => Hpre 2%nat d ltac:(lia)) as H2.
    pose proof (fun d => Hpre 3%nat d ltac:(lia)) as H3.
    pose proof (fun d => Hpre 4%nat d ltac:(lia)) as H4.
    cbn in H0, H1, H2, H3, H4, Hfail.
    repeat (progress (run_drv; rewrite ?H0, ?H1, ?H2, ?H3, ?H4)).
    change (HAL_ret_handler HAL_OK) with ILI9341_EC_OK. run_drv.
    destruct Hfail as [Hc | [Hc Hd]].
    + rewrite Hc. run_drv. repeat split. eauto.
    + rewrite Hc. run_drv. rewrite Hd. run_drv. repeat split. eauto.
Qed.

Lemma init_stops_at_first_failure_witness :
  (exists w1 e,
     init_ili9341_module (answers_at 5 HAL_ERROR) hspi1 peripherals1 power_on
     = (ILI9341_EC_ERR, w1, e) /\ spi_calls w1 = 6%nat) /\
  value (init_ili9341_module (answers_at 5 HAL_ERROR) hspi1 peripherals1 power_on)
  = ILI9341_EC_ERR /\
  command_opcodes (pin_DC power_on)
    (log (init_ili9341_module (answers_at 5 HAL_ERROR) hspi1 peripherals1 power_on))
  = [0x01; 0xC0; 0xC5; 0xC7].
Proof.
  pose (hal := answers_at 5 HAL_ERROR).
  pose (pre := [ili9341_software_reset hal;
                ili9341_configure_power_control_1 hal ILI9341_GVDD_4V6;
                ili9341_configure_vcom_control_1 hal ILI9341_VCOMH_4V25
                  ILI9341_VCOML_minus_1V5]).
  pose (s := ili9341_configure_vcom_control_2 hal ILI9341_VMF_minus_58).
  pose (post := [ili9341_configure_memory_access_control hal;
                 ili9341_configure_pixel_format hal;
                 ili9341_configure_display_function_control hal;
                 ili9341_exit_sleep_mode hal;
                 ili9341_turn_display_on hal]).
  pose (wp := final (init_prologue hspi1 peripherals1 power_on)).
  pose (ep := log (init_prologue hspi1 peripherals1 power_on)).
  pose (w0 := final (run_steps pre wp)).
  pose (e0 := log (run_steps pre wp)).
  split.
  - exists (final (s w0)), (ep ++ e0 ++ log (s w0)). split.
    + apply (proj1 (init_stops_at_first_failure hal hspi1 peripherals1 power_on)
               pre s post wp ep w0 e0 ILI9341_EC_ERR (final (s w0)) (log (s w0))).
      * reflexivity.
      * vm_compute. reflexivity.
      * apply run_steps_OK_inv. vm_compute. reflexivity.
      * vm_compute. reflexivity.
      * discriminate.
    + vm_compute. reflexivity.
  - assert (Hpre : forall k data, (k < 5)%nat ->
              spi_status hal (k + spi_calls power_on) data = HAL_OK).
    { intros k data Hk. cbn.
      destruct (Nat.eqb_spec (k + 0) 5); [lia | reflexivity]. }
    destruct (proj2 (init_stops_at_first_failure hal hspi1 peripherals1 power_on) Hpre
                (or_introl eq_refl)) as (Hv & Hc & _).
    split; [exact Hv | exact Hc].
Defined.

(** * Further properties *)

(** ** Status translator *)

Lemma not_OK_translated_refusal (st : HAL_StatusTypeDef) :
  st <> HAL_OK -> not_OK (HAL_ret_handler st) = true.
Proof.
  unfold not_OK, HAL_ret_handler, HAL_BUSY, HAL_TIMEOUT, HAL_ERROR, HAL_OK,
    ILI9341_EC_NR, ILI9341_EC_ERR, ILI9341_EC_OK.
  intros H.
  destruct (Z.eqb_spec st 2); [reflexivity|].
  destruct (Z.eqb_spec st 3); [reflexivity|].
  destruct (Z.eqb_spec st 1); [reflexivity|]. cbn.
  destruct (Z.eqb_spec st 0); [contradiction | reflexivity].
Qed.

Lemma not_OK_translated_inv (st : HAL_StatusTypeDef) :
  not_OK (HAL_ret_handler st) = false -> st = HAL_OK.
Proof.
  intros H. destruct (Z.eq_dec st HAL_OK) as [E | N]; [exact E|].
  rewrite (not_OK_translated_refusal st N) in H. discriminate.
Qed.

(** X1. Whatever value it is given, the status translator returns neither
    ILI9341_EC_STOP nor ILI9341_EC_NA: the two HAL codes with these numeric
    values are the hard error and the timeout, which it maps to ERROR and to
    NO_RESPONSE. *)
Theorem HAL_ret_handler_never_STOP_nor_NA (HAL_status : HAL_StatusTypeDef) :
  HAL_ret_handler HAL_status <> ILI9341_EC_STOP /\
  HAL_ret_handler HAL_status <> ILI9341_EC_NA.
Proof.
  unfold HAL_ret_handler, HAL_BUSY, HAL_TIMEOUT, HAL_ERROR,
    ILI9341_EC_NR, ILI9341_EC_ERR, ILI9341_EC_STOP, ILI9341_EC_NA.
  destruct (Z.eqb_spec HAL_status 2); [cbn; lia|].
  destruct (Z.eqb_spec HAL_status 3); [cbn; lia|].
  destruct (Z.eqb_spec HAL_status 1); cbn; lia.
Qed.

(** X2. On the four codes of [HAL_StatusTypeDef] the translator returns OK,
    NO_RESPONSE or ERROR, and it returns OK for HAL_OK alone, also among the
    values outside the enumeration. *)
Theorem HAL_ret_handler_verdicts (HAL_status : HAL_StatusTypeDef) :
  (HAL_ret_handler HAL_status = ILI9341_EC_OK <-> HAL_status = HAL_OK) /\
  (0 <= HAL_status <= 3 ->
   HAL_ret_handler HAL_status = ILI9341_EC_OK \/
   HAL_ret_handler HAL_status = ILI9341_EC_NR \/
   HAL_ret_handler HAL_status = ILI9341_EC_ERR).
Proof.
  unfold HAL_ret_handler, HAL_BUSY, HAL_TIMEOUT, HAL_ERROR, HAL_OK,
    ILI9341_EC_NR, ILI9341_EC_ERR, ILI9341_EC_OK.
  destruct (Z.eqb_spec HAL_status 2); [cbn; lia|].
  destruct (Z.eqb_spec HAL_status 3); [cbn; lia|].
  destruct (Z.eqb_spec HAL_status 1); cbn; lia.
Qed.

Lemma HAL_ret_handler_verdicts_witness :
  0 <= HAL_TIMEOUT <= 3 /\
  (HAL_ret_handler HAL_TIMEOUT = ILI9341_EC_OK \/
   HAL_ret_handler HAL_TIMEOUT = ILI9341_EC_NR \/
   HAL_ret_handler HAL_TIMEOUT = ILI9341_EC_ERR).
Proof.
  assert (H : 0 <= HAL_TIMEOUT <= 3) by (unfold HAL_TIMEOUT; lia).
  split; [exact H|].
  exact (proj2 (HAL_ret_handler_verdicts HAL_TIMEOUT) H).
Defined.

(** ** Steps *)

(** X3. Each of the nine steps of the sequencer, when the transport refuses
    its command transmit with a status other than HAL_OK, returns the
    translation of that status, makes no other transmit, and releases
    chip-select. *)
Theorem step_refused_command (hal : transport) (w : world)
  (s : M ILI9341_Status) (st : HAL_StatusTypeDef) :
  In s (init_steps hal) ->
  st <> HAL_OK ->
  (forall data, spi_status hal (spi_calls w) data = st) ->
  value (s w) = HAL_ret_handler st /\
  statuses (log (s w)) = [st] /\
  spi_calls (final (s w)) = S (spi_calls w) /\
  pin_CS (final (s w)) = GPIO_PIN_SET.
Proof.
  intros Hin Hst Hspi.
  pose proof (not_OK_translated_refusal st Hst) as Hno.
  destruct w. cbn in Hspi.
  unfold init_steps in Hin. cbn [In] in Hin.
  repeat (destruct Hin as [<- | Hin]);
    try contradiction;
    run_drv; rewrite ?Hspi, ?Hno; run_drv; repeat split.
Qed.

Lemma step_refused_command_witness :
  value (ili9341_configure_vcom_control_1 (answers_at 0 HAL_BUSY)
           ILI9341_VCOMH_4V25 ILI9341_VCOML_minus_1V5 power_on)
  = ILI9341_EC_NR /\
  statuses (log (ili9341_configure_vcom_control_1 (answers_at 0 HAL_BUSY)
                   ILI9341_VCOMH_4V25 ILI9341_VCOML_minus_1V5 power_on))
  = [HAL_BUSY].
Proof.
  assert (Hin : In (ili9341_configure_vcom_control_1 (answers_at 0 HAL_BUSY)
                      ILI9341_VCOMH_4V25 ILI9341_VCOML_minus_1V5)
                  (init_steps (answers_at 0 HAL_BUSY))).
  { right. right. left. reflexivity. }
  assert (Hst : HAL_BUSY <> HAL_OK) by discriminate.
  assert (Hspi : forall data,
             spi_status (answers_at 0 HAL_BUSY) (spi_calls power_on) data
             = HAL_BUSY) by reflexivity.
  destruct (step_refused_command (answers_at 0 HAL_BUSY) power_on _ HAL_BUSY
              Hin Hst Hspi) as (Hv & Hs & _).
  split; [exact Hv | exact Hs].
Defined.

(** X4. Each step that sends a payload, for any argument: when its command
    transmit is accepted, it makes exactly one more transmit, returns the
    translation of the status of that one, and releases chip-select. *)
Theorem step_payload_verdict (hal : transport)
  (gvdd_level vcomh_voltage vcoml_voltage vmf_offset : Z) (w : world)
  (s : M ILI9341_Status) (st : HAL_StatusTypeDef) :
  In s (payload_steps hal gvdd_level vcomh_voltage vcoml_voltage vmf_offset) ->
  (forall data, spi_status hal (spi_calls w) data = HAL_OK) ->
  (forall data, spi_status hal (S (spi_calls w)) data = st) ->
  value (s w) = HAL_ret_handler st /\
  statuses (log (s w)) = [HAL_OK; st] /\
  spi_calls (final (s w)) = S (S (spi_calls w)) /\
  pin_CS (final (s w)) = GPIO_PIN_SET.
Proof.
  intros Hin Hcmd Hdat.
  destruct w. cbn in Hcmd, Hdat.
  unfold payload_steps in Hin. cbn [In] in Hin.
  repeat (destruct Hin as [<- | Hin]);
    try contradiction;
    run_drv; rewrite ?Hcmd;
    change (HAL_ret_handler HAL_OK) with ILI9341_EC_OK;
    run_drv; rewrite ?Hdat; repeat split.
Qed.

Lemma step_payload_verdict_witness :
  value (ili9341_configure_power_control_1 (answers_at 1 HAL_TIMEOUT)
           ILI9341_GVDD_4V6 power_on) = ILI9341_EC_NR /\
  statuses (log (ili9341_configure_power_control_1 (answers_at 1 HAL_TIMEOUT)
                   ILI9341_GVDD_4V6 power_on)) = [HAL_OK; HAL_TIMEOUT].
Proof.
  assert (Hin : In (ili9341_configure_power_control_1 (answers_at 1 HAL_TIMEOUT)
                      ILI9341_GVDD_4V6)
                  (payload_steps (answers_at 1 HAL_TIMEOUT) ILI9341_GVDD_4V6
                     ILI9341_VCOMH_4V25 ILI9341_VCOML_minus_1V5
                     ILI9341_VMF_minus_58)).
  { left. reflexivity. }
  assert (Hcmd : forall data,
             spi_status (answers_at 1 HAL_TIMEOUT) (spi_calls power_on) data
             = HAL_OK) by reflexivity.
  assert (Hdat : forall data,
             spi_status (answers_at 1 HAL_TIMEOUT) (S (spi_calls power_on)) data
             = HAL_TIMEOUT) by reflexivity.
  destruct (step_payload_verdict (answers_at 1 HAL_TIMEOUT) ILI9341_GVDD_4V6
              ILI9341_VCOMH_4V25 ILI9341_VCOML_minus_1V5 ILI9341_VMF_minus_58
              power_on _ HAL_TIMEOUT Hin Hcmd Hdat) as (Hv & Hs & _).
  split; [exact Hv | exact Hs].
Defined.

(** X5. The three steps that take an argument send it whole, whatever its
    value: after the command byte, when the command is accepted, Power
    Control 1 transmits the one byte [(uint8_t) gvdd_level], VCOM Control 1
    the two bytes [(uint8_t) vcomh_voltage] and [(uint8_t) vcoml_voltage] in
    this order with size 2, VCOM Control 2 the one byte
    [(uint8_t) vmf_offset]; each of these bytes is the argument modulo 256,
    in 0..255.  When the command is refused the command is the only
    transmit. *)
Theorem step_payload_bytes (hal : transport)
  (gvdd_level vcomh_voltage vcoml_voltage vmf_offset : Z) (w : world) :
  let refused cmd :=
    not_OK (HAL_ret_handler (spi_status hal (spi_calls w) [cmd])) in
  transmits (log (ili9341_configure_power_control_1 hal gvdd_level w))
  = ([ILI9341_POWER_CONTROL_1_COMMAND], 1) ::
    (if refused ILI9341_POWER_CONTROL_1_COMMAND then []
     else [([gvdd_level mod 256], 1)]) /\
  transmits (log (ili9341_configure_vcom_control_1 hal vcomh_voltage
                    vcoml_voltage w))
  = ([ILI9341_VCOM_CONTROL_1_COMMAND], 1) ::
    (if refused ILI9341_VCOM_CONTROL_1_COMMAND then []
     else [([vcomh_voltage mod 256; vcoml_voltage mod 256], 2)]) /\
  transmits (log (ili9341_configure_vcom_control_2 hal vmf_offset w))
  = ([ILI9341_VCOM_CONTROL_2_COMMAND], 1) ::
    (if refused ILI9341_VCOM_CONTROL_2_COMMAND then []
     else [([vmf_offset mod 256], 1)]) /\
  (0 <= gvdd_level mod 256 < 256 /\ 0 <= vcomh_voltage mod 256 < 256 /\
   0 <= vcoml_voltage mod 256 < 256 /\ 0 <= vmf_offset mod 256 < 256).
Proof.
  cbv zeta. destruct w.
  split; [| split; [| split]].
  - unfold ili9341_configure_power_control_1.
    change (gvdd_level mod 256) with (uint8 gvdd_level).
    generalize (uint8 gvdd_level). intros b.
    run_drv; step_cases; reflexivity.
  - unfold ili9341_configure_vcom_control_1.
    change (vcomh_voltage mod 256) with (uint8 vcomh_voltage).
    change (vcoml_voltage mod 256) with (uint8 vcoml_voltage).
    generalize (uint8 vcomh_voltage), (uint8 vcoml_voltage). intros b1 b2.
    run_drv; step_cases; reflexivity.
  - unfold ili9341_configure_vcom_control_2.
    change (vmf_offset mod 256) with (uint8 vmf_offset).
    generalize (uint8 vmf_offset). intros b.
    run_drv; step_cases; reflexivity.
  - repeat split; apply Z.mod_pos_bound; reflexivity.
Qed.

(** ** Sequencer, for every transport behaviour *)

(** Case analysis on the status of each transmit of a run, in program
    order: accepted, and the run goes on, or refused, and it ends. *)
Ltac status_cases :=
  repeat match goal with
         | N : ?s <> HAL_OK |- context [not_OK (HAL_ret_handler ?s)] =>
             rewrite (not_OK_translated_refusal s N); run_drv
         | |- context [not_OK (HAL_ret_handler ?s)] =>
             let st := fresh "st" in
             let N := fresh "N" in
             generalize s; intros st;
             destruct (Z.eq_dec st HAL_OK) as [-> | N];
             [ change (not_OK (HAL_ret_handler HAL_OK)) with false; run_drv
             | ]
         end.

Ltac refused_verdict :=
  match goal with
  | Hv : HAL_ret_handler ?s = _, N : ?s <> HAL_OK |- _ =>
      exfalso; apply N; apply HAL_ret_handler_OK_iff; exact Hv
  end.

(** What holds on each of the sixteen paths through the sequencer: one for
    each transmit that can be refused, and the one on which all fifteen are
    accepted. *)
Lemma init_every_path (hal : transport) (hspi peripherals : Z) (w : world) :
  let r := init_ili9341_module hal hspi peripherals w in
  (pin_CS (final r) = GPIO_PIN_SET /\
   pin_RESET (final r) = GPIO_PIN_SET /\
   p_hspi (final r) = hspi /\
   p_ili9341_peripherals (final r) = peripherals) /\
  cs_bracketed (pin_CS w) (log r) = true /\
  (forall k, dc_disciplined (pin_DC w) k (log r) = true) /\
  txe_paired (log r) = true /\
  delays (log r) =
    [1; 1; 5; 5] ++
    (if existsb (Z.eqb ILI9341_SLEEP_OUT_COMMAND)
          (command_opcodes (pin_DC w) (log r))
     then [5] else []) /\
  (ili9341_bpp_type (final r), p_ili9341_fill_screen (final r)) =
    (if existsb (Z.eqb ILI9341_PIXEL_FORMAT_COMMAND)
          (command_opcodes (pin_DC w) (log r))
     then (ILI9341_BPP_16, Some ili9341_fill_screen_16bpp)
     else (ili9341_bpp_type w, p_ili9341_fill_screen w)) /\
  value r = HAL_ret_handler (last (statuses (log r)) HAL_OK) /\
  (value r = ILI9341_EC_OK ->
   statuses (log r) = repeat HAL_OK 15 /\
   length (command_opcodes (pin_DC w) (log r)) = 9%nat /\
   spi_calls (final r) = (15 + spi_calls w)%nat) /\
  (nth_error (transmits (log r)) 0
   = Some ([ILI9341_SOFTWARE_RESET_COMMAND], ILI9341_COMMAND_SIZE) /\
   (length (transmits (log r)) <= 15)%nat /\
   spi_calls (final r) = (length (transmits (log r)) + spi_calls w)%nat).
Proof.
  intros r.
  assert (Hr : r = init_ili9341_module hal hspi peripherals w) by reflexivity.
  clearbody r. revert r Hr.
  destruct w. run_drv. status_cases;
    intros r ->; cbn [value final log fst snd];
    repeat split; intros; try reflexivity; try refused_verdict;
    cbn; lia.
Qed.

(** X6. However the transport answers and whatever verdict comes out, the
    sequencer returns with chip-select released, the reset line released,
    and the two pointers it was given stored in the driver's statics. *)
Theorem init_postcondition (hal : transport) (hspi peripherals : Z) (w : world) :
  let w' := final (init_ili9341_module hal hspi peripherals w) in
  pin_CS w' = GPIO_PIN_SET /\
  pin_RESET w' = GPIO_PIN_SET /\
  p_hspi w' = hspi /\
  p_ili9341_peripherals w' = peripherals.
Proof. exact (proj1 (init_every_path hal hspi peripherals w)). Qed.

(** X7. In every run of the sequencer chip-select brackets the frames: the
    line is never driven low while it is already low, every transmit happens
    while it is low, and the run ends with the line high. *)
Theorem init_chip_select_bracketing (hal : transport) (hspi peripherals : Z)
  (w : world) :
  cs_bracketed (pin_CS w) (log (init_ili9341_module hal hspi peripherals w))
  = true.
Proof. apply (init_every_path hal hspi peripherals w). Qed.

(** X8. In every run of the sequencer, chip-select is driven low only while
    the D/C line is low, the first transmit of each frame is a single byte
    sent with D/C low, and any later transmit of the frame is sent with D/C
    high. *)
Theorem init_data_command_discipline (hal : transport) (hspi peripherals : Z)
  (w : world) (k : nat) :
  dc_disciplined (pin_DC w) k
    (log (init_ili9341_module hal hspi peripherals w)) = true.
Proof. apply (init_every_path hal hspi peripherals w). Qed.

(** X9. In every run of the sequencer the waits on the TXE flag of the SPI
    peripheral and the transmits come in pairs, the wait first: each
    transmit directly follows a wait, and each wait is directly followed by
    a transmit, so that the driver never waits after a transmit it has
    made. *)
Theorem init_waits_before_transmit (hal : transport) (hspi peripherals : Z)
  (w : world) :
  txe_paired (log (init_ili9341_module hal hspi peripherals w)) = true.
Proof. apply (init_every_path hal hspi peripherals w). Qed.

(** X10. The delays of a run of the sequencer are 1, 1, 5 (hardware reset)
    and 5 (software reset), followed by one more delay of 5 exactly when the
    Sleep Out command has been sent; no other delay is requested, whatever
    the transport answers. *)
Theorem init_delays (hal : transport) (hspi peripherals : Z) (w : world) :
  let t := log (init_ili9341_module hal hspi peripherals w) in
  delays t =
  [1; 1; 5; 5] ++
  (if existsb (Z.eqb ILI9341_SLEEP_OUT_COMMAND) (command_opcodes (pin_DC w) t)
   then [5] else []).
Proof. apply (init_every_path hal hspi peripherals w). Qed.

(** X11. After a run of the sequencer the stored mode and the fill-screen
    pointer are 16 bpp and the 16-bpp routine if the Pixel Format command
    has been sent, and are what they were before the run otherwise. *)
Theorem init_mode_effect (hal : transport) (hspi peripherals : Z) (w : world) :
  let r := init_ili9341_module hal hspi peripherals w in
  (ili9341_bpp_type (final r), p_ili9341_fill_screen (final r)) =
  (if existsb (Z.eqb ILI9341_PIXEL_FORMAT_COMMAND)
        (command_opcodes (pin_DC w) (log r))
   then (ILI9341_BPP_16, Some ili9341_fill_screen_16bpp)
   else (ili9341_bpp_type w, p_ili9341_fill_screen w)).
Proof. apply (init_every_path hal hspi peripherals w). Qed.

(** X12. The verdict of the sequencer is always the translation of the
    status of the last transmit it made.  Its first transmit is the Software
    Reset command, it makes at most fifteen, and the transmit counter grows
    by the number it made. *)
Theorem init_verdict_of_last_transmit (hal : transport) (hspi peripherals : Z)
  (w : world) :
  let r := init_ili9341_module hal hspi peripherals w in
  value r = HAL_ret_handler (last (statuses (log r)) HAL_OK) /\
  nth_error (transmits (log r)) 0
  = Some ([ILI9341_SOFTWARE_RESET_COMMAND], ILI9341_COMMAND_SIZE) /\
  (length (transmits (log r)) <= 15)%nat /\
  spi_calls (final r) = (length (transmits (log r)) + spi_calls w)%nat.
Proof.
  pose proof (init_every_path hal hspi peripherals w) as H.
  cbv zeta in *. tauto.
Qed.

(** X13. The sequencer returns OK only if it made all fifteen transmits and
    the transport accepted each of them with HAL_OK: nine commands have been
    sent. *)
Theorem init_OK_all_accepted (hal : transport) (hspi peripherals : Z)
  (w : world) :
  let r := init_ili9341_module hal hspi peripherals w in
  value r = ILI9341_EC_OK ->
  statuses (log r) = repeat HAL_OK 15 /\
  length (command_opcodes (pin_DC w) (log r)) = 9%nat /\
  spi_calls (final r) = (15 + spi_calls w)%nat.
Proof.
  pose proof (init_every_path hal hspi peripherals w) as H.
  cbv zeta in *. tauto.
Qed.

Lemma init_OK_all_accepted_witness :
  value (init_ili9341_module always_OK hspi1 peripherals1 power_on)
  = ILI9341_EC_OK /\
  statuses (log (init_ili9341_module always_OK hspi1 peripherals1 power_on))
  = repeat HAL_OK 15.
Proof.
  assert (Hv : value (init_ili9341_module always_OK hspi1 peripherals1 power_on)
               = ILI9341_EC_OK) by reflexivity.
  split; [exact Hv|].
  exact (proj1 (init_OK_all_accepted always_OK hspi1 peripherals1 power_on Hv)).
Defined.

(** ** Mode select *)

(** X14. The mode-select operation accepts the two modes of [ILI9341_BPP_t]
    and nothing else: for one of them it returns OK, stores the mode and
    points the fill-screen pointer at the routine of that mode; for any
    other value it returns ERROR and leaves the driver as it was.  In both
    cases it makes no call on the hardware: the display is not told of the
    new mode. *)
Theorem set_bpp_type_behaviour (bpp : ILI9341_BPP_t) (w : world) :
  let r := set_ili9341_bpp_type bpp w in
  log r = [] /\
  (bpp = ILI9341_BPP_16 \/ bpp = ILI9341_BPP_18 ->
   value r = ILI9341_EC_OK /\
   ili9341_bpp_type (final r) = bpp /\
   mode_consistent (final r) /\
   (p_hspi (final r), p_ili9341_peripherals (final r), spi_calls (final r),
    pin_CS (final r), pin_RESET (final r), pin_DC (final r))
   = (p_hspi w, p_ili9341_peripherals w, spi_calls w,
      pin_CS w, pin_RESET w, pin_DC w)) /\
  (bpp <> ILI9341_BPP_16 -> bpp <> ILI9341_BPP_18 ->
   value r = ILI9341_EC_ERR /\ final r = w).
Proof.
  destruct w. unfold set_ili9341_bpp_type, mode_consistent.
  destruct (Z.eqb_spec bpp ILI9341_BPP_16) as [-> | H16];
    [| destruct (Z.eqb_spec bpp ILI9341_BPP_18) as [-> | H18]];
    cbn; repeat split; intros; auto;
    try contradiction;
    match goal with
    | H : _ \/ _ |- _ => destruct H; try contradiction; try discriminate
    | _ => idtac
    end.
Qed.

Lemma set_bpp_type_behaviour_witness :
  value (set_ili9341_bpp_type ILI9341_BPP_18 power_on) = ILI9341_EC_OK /\
  p_ili9341_fill_screen (final (set_ili9341_bpp_type ILI9341_BPP_18 power_on))
  = Some ili9341_fill_screen_18bpp /\
  value (set_ili9341_bpp_type 2 power_on) = ILI9341_EC_ERR /\
  final (set_ili9341_bpp_type 2 power_on) = power_on.
Proof.
  destruct (proj1 (proj2 (set_bpp_type_behaviour ILI9341_BPP_18 power_on))
              (or_intror eq_refl)) as (Hv & _).
  destruct (proj2 (proj2 (set_bpp_type_behaviour 2 power_on)))
    as (He & Hw); [discriminate | discriminate |].
  split; [exact Hv|]. split; [reflexivity|]. split; [exact He | exact Hw].
Defined.

(** X15. Once the stored mode and the fill-screen pointer agree, they agree
    for ever: the mode-select operation (whatever its argument and verdict),
    each step of the sequencer and the sequencer itself (however the
    transport answers) keep the agreement. *)
Theorem mode_consistent_invariant (hal : transport) (w : world) :
  mode_consistent w ->
  (forall bpp, mode_consistent (final (set_ili9341_bpp_type bpp w))) /\
  (forall s, In s (init_steps hal) -> mode_consistent (final (s w))) /\
  (forall hspi peripherals,
     mode_consistent (final (init_ili9341_module hal hspi peripherals w))).
Proof.
  intros Hw. split; [| split].
  - intros bpp. destruct w. unfold set_ili9341_bpp_type, mode_consistent in *.
    destruct (Z.eqb_spec bpp ILI9341_BPP_16) as [-> | H16];
      [| destruct (Z.eqb_spec bpp ILI9341_BPP_18) as [-> | H18]]; cbn.
    + left. split; reflexivity.
    + right. split; reflexivity.
    + exact Hw.
  - intros s Hin. destruct w. unfold mode_consistent in *. cbn in Hw.
    unfold init_steps in Hin. cbn [In] in Hin.
    repeat (destruct Hin as [<- | Hin]); try contradiction;
      run_drv; step_cases; try exact Hw; left; split; reflexivity.
  - intros hspi peripherals.
    pose proof (init_every_path hal hspi peripherals w) as H. cbv zeta in H.
    destruct H as (_ & _ & _ & _ & _ & H & _).
    unfold mode_consistent in *.
    destruct (existsb _ _); injection H as -> ->; [left; split; reflexivity|].
    exact Hw.
Qed.

Lemma mode_consistent_invariant_witness :
  let w := final (set_ili9341_bpp_type ILI9341_BPP_18 power_on) in
  mode_consistent w /\
  mode_consistent (final (set_ili9341_bpp_type 7 w)) /\
  mode_consistent
    (final (init_ili9341_module (answers_at 3 HAL_BUSY) hspi1 peripherals1 w)).
Proof.
  intros w.
  assert (Hw : mode_consistent w).
  { right. split; reflexivity. }
  destruct (mode_consistent_invariant (answers_at 3 HAL_BUSY) w Hw)
    as (Hset & _ & Hinit).
  split; [exact Hw|]. split; [apply Hset | apply Hinit].
Defined.

(** ** Bit-field payloads *)

Lemma bitfield_mod (width v : Z) :
  0 <= width -> bitfield width v = v mod 2 ^ width.
Proof. intros H. unfold bitfield. apply Z.land_ones. exact H. Qed.

Ltac enum_below x n :=
  let H := fresh "H" in
  assert (H : 0 <= x < n) by (apply Z.mod_pos_bound; reflexivity);
  generalize dependent x; intros x H;
  let rec go k :=
    lazymatch k with
    | O => exfalso; lia
    | S ?k' =>
        let E := fresh "E" in
        destruct (Z.eq_dec x (Z.of_nat k')) as [E | E];
        [ cbn in E; subst x | go k' ]
    end in
  let m := eval cbv in (Z.to_nat n) in go m.

(** X16. Whatever values are stored into the two format fields of a Pixel
    Format structure, each store keeps the low three bits, the byte image is
    a byte with DBI at bits 0-2 and DPI at bits 4-6, bits 3 and 7 are zero,
    and both fields are read back from the byte unchanged. *)
Theorem pixel_format_byte_round_trip (a b : Z) :
  let s := set_dpi b (set_dbi a PIXFMT_zero) in
  dbi s = a mod 8 /\ dpi s = b mod 8 /\
  PIXFMT_byte s = pixel_format_layout (a mod 8) (b mod 8) /\
  0 <= PIXFMT_byte s < 256 /\
  Z.land (PIXFMT_byte s) 7 = a mod 8 /\
  Z.land (Z.shiftr (PIXFMT_byte s) 4) 7 = b mod 8 /\
  Z.testbit (PIXFMT_byte s) 3 = false /\
  Z.testbit (PIXFMT_byte s) 7 = false.
Proof.
  cbv zeta. unfold set_dpi, set_dbi, PIXFMT_byte, PIXFMT_zero. cbn [dbi d3 dpi d7].
  rewrite !bitfield_mod by lia.
  change (2 ^ 3) with 8.
  set (x := a mod 8). set (y := b mod 8).
  enum_below x 8; enum_below y 8; cbn; repeat split; lia.
Qed.

(** X17. Whatever values are stored into the one-bit fields of a Memory
    Access Control structure (the three direction bits through the
    write/read direction structure, as the step does), each store keeps the
    low bit, the byte image follows the documented layout, it is a byte, and
    its two reserved low bits are zero. *)
Theorem madctl_byte_round_trip (MH BGR ML MV MX MY : Z) :
  let wr := set_my MY (set_mx MX (set_mv MV WRDIR_zero)) in
  let s := set_wr_rd_dir (WRDIR_byte wr)
             (set_ml ML (set_bgr BGR (set_mh MH MADCTL_zero))) in
  MADCTL_byte s
  = madctl_layout (MH mod 2) (BGR mod 2) (ML mod 2) (MV mod 2) (MX mod 2)
      (MY mod 2) /\
  0 <= MADCTL_byte s < 256 /\
  Z.land (MADCTL_byte s) 3 = 0 /\
  Z.b2z (Z.testbit (MADCTL_byte s) 3) = BGR mod 2 /\
  Z.b2z (Z.testbit (MADCTL_byte s) 6) = MX mod 2.
Proof.
  cbv zeta.
  unfold set_wr_rd_dir, set_ml, set_bgr, set_mh, set_my, set_mx, set_mv,
    MADCTL_byte, WRDIR_byte, MADCTL_zero, WRDIR_zero.
  cbn [d0_and_d1 mh bgr ml wr_rd_dir mv mx my reserved].
  rewrite !(bitfield_mod 1) by lia.
  change (2 ^ 1) with 2.
  set (h := MH mod 2). set (c := BGR mod 2). set (v := ML mod 2).
  set (a := MV mod 2). set (b := MX mod 2). set (d := MY mod 2).
  enum_below h 2; enum_below c 2; enum_below v 2;
    enum_below a 2; enum_below b 2; enum_below d 2;
    cbn; repeat split; lia.
Qed.

(** ** The first draft of the sequencer *)

(** X18. The draft sequencer makes one transmit, the Software Reset command,
    and returns OK if the transport accepts it and ERROR otherwise: unlike
    the final sequencer it does not pass the step's verdict on, so that a
    busy transport gives ERROR and not NO_RESPONSE.  What it does on the
    hardware is the beginning of what the final sequencer does. *)
Theorem draft_init_behaviour (hal : transport) (hspi peripherals : Z)
  (w : world) :
  let r := Draft.init_ili9341_module hal hspi peripherals w in
  let st := spi_status hal (spi_calls w) [ILI9341_SOFTWARE_RESET_COMMAND] in
  value r = (if st =? HAL_OK then ILI9341_EC_OK else ILI9341_EC_ERR) /\
  transmits (log r) = [([ILI9341_SOFTWARE_RESET_COMMAND], ILI9341_COMMAND_SIZE)] /\
  delays (log r) = [1; 1; 5; 5] /\
  pin_CS (final r) = GPIO_PIN_SET /\
  firstn (length (log r)) (log (init_ili9341_module hal hspi peripherals w))
  = log r.
Proof.
  destruct w. unfold Draft.init_ili9341_module. run_drv.
  status_cases; cbn [value final log fst snd];
    repeat split;
    try (apply Z.eqb_neq in N; rewrite N);
    reflexivity.
Qed.
